(** * paasta_tools.vitess_tools: a shallow embedding and its properties

    The module under study is [paasta_tools/vitess_tools.py]: the
    [VitessDeploymentConfig] class, [load_vitess_instance_config] and
    [cr_id].  Python dictionaries are finite maps ([gmap]) from strings to
    a JSON-like [value]; exceptions are an explicit [result]; the calls that
    read the service configuration store are recorded in a trace. *)

From Stdlib Require Import Ascii String.
From stdpp Require Import gmap strings list fin_maps.

Set Warnings "-register-all".

(** ** Values, exceptions, results *)

(** A RawConfig value: what a YAML/JSON service configuration can hold. *)
Inductive value :=
| VNone
| VBool (b : bool)
| VInt (z : Z)
| VStr (s : string)
| VList (l : list value)
| VDict (m : gmap string value).

(** The exceptions that cross the functions of this module. *)
Inductive exn :=
| InvalidJobNameError (job_id : string)
| MissingConfiguration
| MalformedIndex.

Inductive result (A : Type) :=
| Ok (a : A)
| Raise (e : exn).
Arguments Ok {A} a.
Arguments Raise {A} e.

(** The typed view of a value declared [List[str]] in a TypedDict; [None]
    when the value is not a list of strings. *)
Definition as_str (v : value) : option string :=
  match v with VStr s => Some s | _ => None end.

Definition as_str_list (v : value) : option (list string) :=
  match v with VList l => mapM as_str l | _ => None end.

(** ** paasta_tools.utils *)

Module utils.

(** Modelled from the spec: the separator of the Job-Id Codec
    ([paasta_tools.utils.SPACER] is not part of the sources at hand); the
    canonical identifier is "service.instance". *)
Definition SPACER : ascii := "."%char.

(** Python's [str.split(sep)] for a one-character separator. *)
Fixpoint split (sep : ascii) (s : string) : list string :=
  match s with
  | EmptyString => [EmptyString]
  | String c rest =>
      if Ascii.eqb c sep then EmptyString :: split sep rest
      else match split sep rest with
           | [] => [String c EmptyString]
           | hd :: tl => String c hd :: tl
           end
  end.

(** Whether the character [c] occurs in [s] (Python's [c in s]). *)
Fixpoint contains (c : ascii) (s : string) : bool :=
  match s with
  | EmptyString => false
  | String c' rest => Ascii.eqb c' c || contains c rest
  end.

(** Modelled from the spec: [compose_job_id] is missing from the sources;
    the spec has it as the deterministic concatenation of the two parts
    with the fixed separator. *)
Definition compose_job_id (name instance : string) : string :=
  name +:+ String SPACER instance.

(** Modelled from the spec: [decompose_job_id] is missing from the
    sources; it fails with the invalid-identifier error when the input
    does not have exactly the separator structure of [compose_job_id]. *)
Definition decompose_job_id (job_id : string) : result (string * string) :=
  match split SPACER job_id with
  | [name; instance] => Ok (name, instance)
  | _ => Raise (InvalidJobNameError job_id)
  end.

(** Whether a job id decomposes without the invalid-identifier error. *)
Definition decomposes (job_id : string) : bool :=
  match decompose_job_id job_id with Ok _ => true | Raise _ => false end.

(** Modelled from the spec: [deep_merge_dictionaries] is missing from the
    sources.  For each key of the union of both mappings: present in one
    only, it is copied; present in both with both values mappings, they
    are merged recursively; otherwise the overrides value wins. *)
Fixpoint merge_value (ov dv : value) {struct dv} : value :=
  match dv, ov with
  | VDict d, VDict o =>
      VDict (union_with (fun a b => Some (merge_value b a)) d o)
  | _, _ => ov
  end.

Definition deep_merge_dictionaries
    (overrides defaults : gmap string value) : gmap string value :=
  union_with (fun dv ov => Some (merge_value ov dv)) defaults overrides.

(** A branch record: a TypedDict, hence a dictionary. *)
Abbreviation BranchDictV2 := (gmap string value).

(** Modelled from the spec: the deployments index ([DeploymentsJsonV2]) is
    missing from the sources; it is keyed by (service, branch,
    deploy_group) and holds a branch record or nothing. *)
Abbreviation DeploymentsJsonV2 := (gmap (string * string * string) (gmap string value)).

(** Modelled from the spec: [get_branch_dict] is missing from the
    sources; it looks the composite key up and returns the absent result,
    not an error, when there is no entry. *)
Definition get_branch_dict (deployments_json : DeploymentsJsonV2)
    (service branch deploy_group : string) : option BranchDictV2 :=
  deployments_json !! (service, branch, deploy_group).

End utils.

(** ** paasta_tools.kubernetes_tools *)

Module kubernetes_tools.

Section sanitiser.
(** The naming constraints of the target platform: the characters a
    name may hold, what an invalid character is replaced by (the empty
    string strips it) and the length bound. *)
Variable allowed : ascii -> bool.
Variable replacement : ascii -> string.
Variable max_len : nat.

Definition sanitise_char (c : ascii) : string :=
  if allowed c then String c EmptyString else replacement c.

Fixpoint sanitise_chars (s : string) : string :=
  match s with
  | EmptyString => EmptyString
  | String c rest => sanitise_char c +:+ sanitise_chars rest
  end.

Fixpoint truncate (n : nat) (s : string) : string :=
  match n, s with
  | S n', String c rest => String c (truncate n' rest)
  | _, _ => EmptyString
  end.

(** Modelled from the spec: [sanitise_kubernetes_name] is missing from
    the sources.  The spec has it total: invalid characters are replaced
    or stripped rather than rejected, and the result is cut to the
    length bound. *)
Definition sanitise_kubernetes_name (name : string) : string :=
  truncate max_len (sanitise_chars name).

Fixpoint all_allowed (s : string) : bool :=
  match s with
  | EmptyString => true
  | String c rest => allowed c && all_allowed rest
  end.
End sanitiser.

(** The spec's example of such constraints: a DNS label, lowercase
    alphanumerics and hyphens, at most 63 characters. *)
Definition is_lower (c : ascii) : bool :=
  let n := nat_of_ascii c in (97 <=? n)%nat && (n <=? 122)%nat.
Definition is_upper (c : ascii) : bool :=
  let n := nat_of_ascii c in (65 <=? n)%nat && (n <=? 90)%nat.
Definition is_digit (c : ascii) : bool :=
  let n := nat_of_ascii c in (48 <=? n)%nat && (n <=? 57)%nat.
Definition dns_label_char (c : ascii) : bool :=
  is_lower c || is_digit c || Ascii.eqb c "-"%char.
Definition dns_replacement (c : ascii) : string :=
  if is_upper c then String (ascii_of_nat (nat_of_ascii c + 32)) EmptyString
  else "-".
Definition dns_max_len : nat := 63.

End kubernetes_tools.

(** ** The configuration store *)

(** The calls that read the configuration store, in the order made. *)
Inductive Event :=
| EvReadServiceConfiguration (service soa_dir : string)
| EvLoadServiceInstanceConfig
    (service instance instance_type cluster soa_dir : string)
| EvLoadV2DeploymentsJson (service soa_dir : string).

(** What the store answers: the three readers that
    [load_vitess_instance_config] calls are not part of this module, so the
    content they find on disk is a parameter.  A reader either returns a
    parsed document or raises. *)
Record SoaStore := {
  stored_service_configuration : string -> string -> result (gmap string value);
  stored_instance_config :
    string -> string -> string -> string -> string -> result (gmap string value);
  stored_deployments_json : string -> string -> result utils.DeploymentsJsonV2;
}.

(** A computation that reads the store: the trace of its reads and its
    outcome.  An exception ends the computation. *)
Definition Io (A : Type) : Type := (list Event * result A)%type.

Definition io_ret {A} (a : A) : Io A := ([], Ok a).

Definition io_bind {A B} (m : Io A) (f : A -> Io B) : Io B :=
  match m with
  | (t, Ok a) => let '(t', r) := f a in (t ++ t', r)
  | (t, Raise e) => (t, Raise e)
  end.

Definition io_trace {A} (m : Io A) : list Event := fst m.
Definition io_outcome {A} (m : Io A) : result A := snd m.

Notation "x <~ m ;; k" := (io_bind m (fun x => k))
  (at level 100, m at next level, right associativity).

Definition read_service_configuration (store : SoaStore)
    (service soa_dir : string) : Io (gmap string value) :=
  ([EvReadServiceConfiguration service soa_dir],
   stored_service_configuration store service soa_dir).

Definition load_service_instance_config (store : SoaStore)
    (service instance instance_type cluster soa_dir : string)
    : Io (gmap string value) :=
  ([EvLoadServiceInstanceConfig service instance instance_type cluster soa_dir],
   stored_instance_config store service instance instance_type cluster soa_dir).

Definition load_v2_deployments_json (store : SoaStore)
    (service soa_dir : string) : Io utils.DeploymentsJsonV2 :=
  ([EvLoadV2DeploymentsJson service soa_dir],
   stored_deployments_json store service soa_dir).

Definition is_deployments_read (ev : Event) : bool :=
  match ev with EvLoadV2DeploymentsJson _ _ => true | _ => false end.

(** ** paasta_tools.vitess_tools *)

Definition KUBERNETES_NAMESPACE : string := "paasta-vitess".

Module VitessDeploymentConfig.

(** The fields that [__init__] hands to the base class. *)
Record t := mk {
  service : string;
  cluster : string;
  instance : string;
  config_dict : gmap string value;
  branch_dict : option utils.BranchDictV2;
  soa_dir : string;
}.

Definition config_filename_prefix : string := "vitess".

(** Accessors of the base class. *)
Definition get_service (self : t) : string := service self.
Definition get_instance (self : t) : string := instance self.

Definition get_service_name_smartstack (self : t) : string :=
  "vitess_" +:+ get_instance self.

Definition get_nerve_namespace (self : t) : string := "main".

(** The text that [log.error] receives for one registration. *)
Definition invalid_registration_msg (self : t) (registration : string) : string :=
  "Provided registration " +:+ registration +:+ " for service "
    +:+ service self +:+ " is invalid".

(** The [for] loop of [get_registrations]: the error log it writes, and
    whether it ends normally.  Only [InvalidJobNameError] is caught. *)
Fixpoint check_registrations (self : t) (registrations : list string)
    : list string * result unit :=
  match registrations with
  | [] => ([], Ok tt)
  | registration :: rest =>
      match utils.decompose_job_id registration with
      | Ok _ => check_registrations self rest
      | Raise (InvalidJobNameError _) =>
          let '(log, r) := check_registrations self rest in
          (invalid_registration_msg self registration :: log, r)
      | Raise e => ([], Raise e)
      end
  end.

(** [get_registrations] once the configured value is read as a list of
    strings: the error log and the returned list. *)
Definition get_registrations_of (self : t) (registrations : list string)
    : list string * result (list string) :=
  let '(log, r) := check_registrations self registrations in
  match r with
  | Ok _ =>
      (log, Ok (match registrations with
                | [] => [utils.compose_job_id (get_service_name_smartstack self) "main"]
                | _ => registrations
                end))
  | Raise e => (log, Raise e)
  end.

(** [self.config_dict.get("registrations", [])], then the loop and the
    return.  [None] when the configured value is outside the declared type
    [List[str]]. *)
Definition get_registrations (self : t)
    : option (list string * result (list string)) :=
  registrations ← as_str_list (default (VList []) (config_dict self !! "registrations"));
  Some (get_registrations_of self registrations).

(** The configured registrations read at their declared type, the empty
    list when the key is absent: the first statement of
    [get_registrations]. *)
Definition configured_registrations (self : t) : option (list string) :=
  as_str_list (default (VList []) (config_dict self !! "registrations")).

Definition get_kubernetes_namespace (self : t) : string := KUBERNETES_NAMESPACE.

Definition get_instances (self : t) (with_limit : bool) : value :=
  default (VInt 1) (config_dict self !! "replicas").

Definition get_bounce_method (self : t) : string := "crossover".



Section methods.
(** The sanitiser of kubernetes_tools, under its naming constraints. *)
Variable allowed : ascii -> bool.
Variable replacement : ascii -> string.
Variable max_len : nat.

Definition get_sanitised_service_name (self : t) : string :=
  kubernetes_tools.sanitise_kubernetes_name allowed replacement max_len (get_service self).

Definition get_sanitised_instance_name (self : t) : string :=
  kubernetes_tools.sanitise_kubernetes_name allowed replacement max_len (get_instance self).

Definition get_sanitised_deployment_name (self : t) : string :=
  get_sanitised_instance_name self.

(** The named checks of the base class: the check called [param], run on the
    configuration, gives a message when it fails and nothing when it
    passes. *)
Variable check : string -> gmap string value -> option string.


End methods.

End VitessDeploymentConfig.

Section loader.
Variable store : SoaStore.
(** Methods of the base class that read the branch and the deploy group off
    an instance configuration; not part of this module. *)
Variable get_branch : VitessDeploymentConfig.t -> string.
Variable get_deploy_group : VitessDeploymentConfig.t -> string.

(** [load_deployments] and [soa_dir] are passed explicitly; their defaults
    in the source are [True] and the constant [DEFAULT_SOA_DIR] of utils. *)
Definition load_vitess_instance_config
    (service instance cluster : string) (load_deployments : bool)
    (soa_dir : string) : Io VitessDeploymentConfig.t :=
  general_config <~ read_service_configuration store service soa_dir ;;
  instance_config <~
    load_service_instance_config store service instance " vitesscluster" cluster soa_dir ;;
  let general_config := utils.deep_merge_dictionaries instance_config general_config in
  branch_dict <~
    (if load_deployments then
       deployments_json <~ load_v2_deployments_json store service soa_dir ;;
       let temp_instance_config :=
         VitessDeploymentConfig.mk service cluster instance general_config None soa_dir in
       let branch := get_branch temp_instance_config in
       let deploy_group := get_deploy_group temp_instance_config in
       io_ret (utils.get_branch_dict deployments_json service branch deploy_group)
     else io_ret None) ;;
  io_ret (VitessDeploymentConfig.mk service cluster instance general_config branch_dict soa_dir).
End loader.

Section custom_resource.
(** [sanitised_cr_name] of kubernetes_tools, not part of this module. *)
Variable sanitised_cr_name : string -> string -> string.

Definition cr_id (service instance : string) : gmap string string :=
  {[ "group" := "yelp.com";
     "version" := "v1alpha1";
     "namespace" := KUBERNETES_NAMESPACE;
     "plural" := "vitess";
     "name" := sanitised_cr_name service instance ]}.
End custom_resource.

(** ** A sample store

    One service, "vitess", with a service-level and an instance-level
    configuration and a deployments index that holds a single deployment of
    another deploy group.  It serves the worked examples below. *)

Definition sample_store : SoaStore := {|
  stored_service_configuration := fun service soa_dir =>
    if String.eqb service "vitess"
    then Ok {[ "cpus" := VInt 1; "deploy_group" := VStr "prod.main" ]}
    else Raise MissingConfiguration;
  stored_instance_config := fun service instance instance_type cluster soa_dir =>
    Ok {[ "replicas" := VInt 3 ]};
  stored_deployments_json := fun service soa_dir =>
    Ok {[ ("vitess", "paasta-superregion.host-1", "dev.main")
            := {[ "docker_image" := VStr "services-vitess:paasta-abc" ]} ]};
|}.

Definition sample_get_branch (self : VitessDeploymentConfig.t) : string :=
  "paasta-" +:+ VitessDeploymentConfig.cluster self
    +:+ "." +:+ VitessDeploymentConfig.instance self.

Definition sample_get_deploy_group (self : VitessDeploymentConfig.t) : string :=
  match VitessDeploymentConfig.config_dict self !! "deploy_group" with
  | Some (VStr deploy_group) => deploy_group
  | _ => VitessDeploymentConfig.cluster self +:+ "." +:+ VitessDeploymentConfig.instance self
  end.

(** * Properties *)

(** ** The layered configuration merger *)

Section merge_facts.
Implicit Types (d o : gmap string value) (k : string).

Lemma merge_value_dict o d :
  utils.merge_value (VDict o) (VDict d) = VDict (utils.deep_merge_dictionaries o d).
Proof. reflexivity. Qed.

Lemma merge_value_override ov dv :
  (forall a b, dv = VDict a -> ov = VDict b -> False) ->
  utils.merge_value ov dv = ov.
Proof.
  intros Hnot. destruct dv; try reflexivity.
  destruct ov; try reflexivity. exfalso; eauto.
Qed.

Lemma deep_merge_lookup o d k :
  utils.deep_merge_dictionaries o d !! k =
    match d !! k, o !! k with
    | Some dv, Some ov => Some (utils.merge_value ov dv)
    | Some dv, None => Some dv
    | None, r => r
    end.
Proof.
  unfold utils.deep_merge_dictionaries. rewrite lookup_union_with.
  destruct (d !! k), (o !! k); reflexivity.
Qed.

Lemma deep_merge_empty_overrides d : utils.deep_merge_dictionaries ∅ d = d.
Proof.
  apply map_eq; intros k. rewrite deep_merge_lookup, lookup_empty.
  destruct (d !! k); reflexivity.
Qed.

Lemma deep_merge_empty_defaults o : utils.deep_merge_dictionaries o ∅ = o.
Proof.
  apply map_eq; intros k. rewrite deep_merge_lookup, lookup_empty. reflexivity.
Qed.

Lemma deep_merge_dom o d :
  dom (utils.deep_merge_dictionaries o d) = dom d ∪ dom o.
Proof.
  apply set_eq; intros k.
  rewrite elem_of_union, !elem_of_dom, deep_merge_lookup.
  destruct (d !! k), (o !! k); split; intros H;
    try (destruct H as [H | H]); eauto; try (by destruct H).
Qed.
End merge_facts.

(** C1: the deep merge of defaults under overrides.  Merging with an empty
    overrides mapping gives the defaults back and merging empty defaults
    gives the overrides back; the keys of the result are those of either
    input; a key in one input only keeps its value; a key whose two values
    are mappings holds their recursive merge (so [{"x": {"a":1,"b":2}}]
    under [{"x": {"b":3,"c":4}}] gives [{"x": {"a":1,"b":3,"c":4}}]); for any
    other key in both, the overrides value wins. *)
Theorem deep_merge_dictionaries_laws :
  (forall defaults, utils.deep_merge_dictionaries ∅ defaults = defaults) /\
  (forall overrides, utils.deep_merge_dictionaries overrides ∅ = overrides) /\
  (forall defaults overrides,
      dom (utils.deep_merge_dictionaries overrides defaults)
      = dom defaults ∪ dom overrides) /\
  (forall defaults overrides k,
      overrides !! k = None ->
      utils.deep_merge_dictionaries overrides defaults !! k = defaults !! k) /\
  (forall defaults overrides k,
      defaults !! k = None ->
      utils.deep_merge_dictionaries overrides defaults !! k = overrides !! k) /\
  (forall defaults overrides k a b,
      defaults !! k = Some (VDict a) -> overrides !! k = Some (VDict b) ->
      utils.deep_merge_dictionaries overrides defaults !! k
      = Some (VDict (utils.deep_merge_dictionaries b a))) /\
  utils.deep_merge_dictionaries
    {[ "x" := VDict {[ "b" := VInt 3; "c" := VInt 4 ]} ]}
    {[ "x" := VDict {[ "a" := VInt 1; "b" := VInt 2 ]} ]}
  = {[ "x" := VDict {[ "a" := VInt 1; "b" := VInt 3; "c" := VInt 4 ]} ]} /\
  (forall defaults overrides k dv ov,
      defaults !! k = Some dv -> overrides !! k = Some ov ->
      (forall a b, dv = VDict a -> ov = VDict b -> False) ->
      utils.deep_merge_dictionaries overrides defaults !! k = Some ov).
Proof.
  split_and!.
  - apply deep_merge_empty_overrides.
  - apply deep_merge_empty_defaults.
  - intros d o. apply deep_merge_dom.
  - intros d o k Ho. rewrite deep_merge_lookup, Ho. by destruct (d !! k).
  - intros d o k Hd. by rewrite deep_merge_lookup, Hd.
  - intros d o k a b Hd Ho.
    by rewrite deep_merge_lookup, Hd, Ho, merge_value_dict.
  - vm_compute. reflexivity.
  - intros d o k dv ov Hd Ho Hnot.
    by rewrite deep_merge_lookup, Hd, Ho, merge_value_override.
Qed.

(** A list override replaces a list default: nothing is concatenated, and
    the sibling key of the defaults is kept. *)
Lemma deep_merge_dictionaries_laws_witness :
  utils.deep_merge_dictionaries
    {[ "ports" := VList [VInt 2] ]}
    {[ "ports" := VList [VInt 1; VInt 3]; "mem" := VInt 9 ]} !! "ports"
  = Some (VList [VInt 2]).
Proof.
  apply (proj2 (proj2 (proj2 (proj2 (proj2 (proj2 (proj2
           deep_merge_dictionaries_laws)))))))
    with (dv := VList [VInt 1; VInt 3]).
  - reflexivity.
  - reflexivity.
  - intros a b Hdv _. discriminate Hdv.
Defined.

(** ** The job-id codec *)

Lemma split_without_sep sep s :
  utils.contains sep s = false -> utils.split sep s = [s].
Proof.
  induction s as [|c s IH]; simpl; [reflexivity|].
  intros H. apply orb_false_iff in H as [Hc Hs].
  rewrite Hc, (IH Hs). reflexivity.
Qed.

Lemma split_at_first_sep sep a b :
  utils.contains sep a = false ->
  utils.split sep (a +:+ String sep b) = a :: utils.split sep b.
Proof.
  induction a as [|c a IH]; simpl.
  - intros _. by rewrite Ascii.eqb_refl.
  - intros H. apply orb_false_iff in H as [Hc Ha].
    rewrite Hc, (IH Ha). reflexivity.
Qed.

(** C2: decomposing the job id composed from two parts that hold no
    separator character gives the two parts back. *)
Theorem decompose_compose_job_id (a b : string) :
  utils.contains utils.SPACER a = false ->
  utils.contains utils.SPACER b = false ->
  utils.decompose_job_id (utils.compose_job_id a b) = Ok (a, b).
Proof.
  intros Ha Hb. unfold utils.decompose_job_id, utils.compose_job_id.
  rewrite (split_at_first_sep _ _ _ Ha), (split_without_sep _ _ Hb).
  reflexivity.
Qed.

Lemma decompose_compose_job_id_witness :
  utils.decompose_job_id (utils.compose_job_id "vitess_host-1" "main")
  = Ok ("vitess_host-1", "main").
Proof. apply decompose_compose_job_id; reflexivity. Defined.

(** ** Registrations *)

Section registrations.
Import VitessDeploymentConfig.
Implicit Types (self : VitessDeploymentConfig.t) (registrations : list string).

Lemma as_str_list_strings registrations :
  as_str_list (VList (VStr <$> registrations)) = Some registrations.
Proof.
  unfold as_str_list. induction registrations as [|r rs IH]; [reflexivity|].
  cbn in *. rewrite IH. reflexivity.
Qed.

Lemma check_registrations_log self registrations :
  check_registrations self registrations
  = (invalid_registration_msg self
       <$> filter (fun r => utils.decomposes r = false) registrations,
     Ok tt).
Proof.
  induction registrations as [|r rs IH]; [reflexivity|].
  cbn [check_registrations].
  destruct (utils.decompose_job_id r) as [p|e] eqn:Hr.
  - rewrite filter_cons_False; [exact IH|].
    unfold utils.decomposes. rewrite Hr. discriminate.
  - rewrite filter_cons_True by (unfold utils.decomposes; by rewrite Hr).
    assert (e = InvalidJobNameError r) as ->.
    { unfold utils.decompose_job_id in Hr. repeat case_match; congruence. }
    rewrite IH. reflexivity.
Qed.

Lemma get_registrations_of_spec self registrations :
  get_registrations_of self registrations
  = (invalid_registration_msg self
       <$> filter (fun r => utils.decomposes r = false) registrations,
     Ok (match registrations with
         | [] => [utils.compose_job_id (get_service_name_smartstack self) "main"]
         | _ => registrations
         end)).
Proof.
  unfold get_registrations_of. rewrite check_registrations_log. reflexivity.
Qed.
End registrations.

(** C3: with the configured registrations absent or the empty list,
    [get_registrations] returns exactly one registration, the job id
    composed from ["vitess_" + instance] (the smartstack service name) and
    ["main"], and logs nothing. *)
Theorem get_registrations_synthesized (self : VitessDeploymentConfig.t) :
  VitessDeploymentConfig.config_dict self !! "registrations" = None \/
  VitessDeploymentConfig.config_dict self !! "registrations" = Some (VList []) ->
  VitessDeploymentConfig.get_registrations self
  = Some ([], Ok [utils.compose_job_id
                    ("vitess_" +:+ VitessDeploymentConfig.instance self) "main"])
  /\ VitessDeploymentConfig.get_service_name_smartstack self
     = "vitess_" +:+ VitessDeploymentConfig.instance self.
Proof.
  intros H. split; [|reflexivity].
  unfold VitessDeploymentConfig.get_registrations.
  destruct H as [-> | ->]; reflexivity.
Qed.

Lemma get_registrations_synthesized_witness :
  VitessDeploymentConfig.get_registrations
    (VitessDeploymentConfig.mk "vitess" "superregion" "host-1"
       {[ "replicas" := VInt 3 ]} None "/nail/etc/services")
  = Some ([], Ok ["vitess_host-1.main"]).
Proof.
  apply (get_registrations_synthesized
           (VitessDeploymentConfig.mk "vitess" "superregion" "host-1"
              {[ "replicas" := VInt 3 ]} None "/nail/etc/services")).
  left. reflexivity.
Defined.

(** C4, as the code has it: for a configured list of registration strings,
    [get_registrations] raises nothing, logs one error for each entry that
    does not decompose as a job id, in order, and returns the configured
    list with every entry kept (the synthesized registration when the list
    is empty). *)
Theorem get_registrations_logs_and_keeps
    (self : VitessDeploymentConfig.t) (registrations : list string) :
  VitessDeploymentConfig.config_dict self !! "registrations"
  = Some (VList (VStr <$> registrations)) ->
  VitessDeploymentConfig.get_registrations self
  = Some (VitessDeploymentConfig.invalid_registration_msg self
            <$> filter (fun r => utils.decomposes r = false) registrations,
          Ok (match registrations with
              | [] => [utils.compose_job_id
                         (VitessDeploymentConfig.get_service_name_smartstack self) "main"]
              | _ => registrations
              end)).
Proof.
  intros H. unfold VitessDeploymentConfig.get_registrations.
  rewrite H. cbn [from_option]. unfold id.
  rewrite as_str_list_strings. cbn [mbind option_bind].
  rewrite get_registrations_of_spec. reflexivity.
Qed.

Lemma get_registrations_logs_and_keeps_witness :
  VitessDeploymentConfig.get_registrations
    (VitessDeploymentConfig.mk "vitess" "superregion" "host-1"
       {[ "registrations" := VList [VStr "bad"; VStr "vitess_host-1.main"] ]}
       None "/nail/etc/services")
  = Some (["Provided registration bad for service vitess is invalid"],
          Ok ["bad"; "vitess_host-1.main"]).
Proof.
  apply (get_registrations_logs_and_keeps
           (VitessDeploymentConfig.mk "vitess" "superregion" "host-1"
              {[ "registrations" := VList [VStr "bad"; VStr "vitess_host-1.main"] ]}
              None "/nail/etc/services")
           ["bad"; "vitess_host-1.main"]).
  reflexivity.
Defined.

(** C4 as stated fails: the entry ["bad"] does not decompose, an error is
    logged for it, and it is still in the returned list. *)
Lemma get_registrations_keeps_invalid_entry :
  utils.decompose_job_id "bad" = Raise (InvalidJobNameError "bad") /\
  exists log returned,
    VitessDeploymentConfig.get_registrations
      (VitessDeploymentConfig.mk "vitess" "superregion" "host-1"
         {[ "registrations" := VList [VStr "bad"; VStr "vitess_host-1.main"] ]}
         None "/nail/etc/services")
    = Some (log, Ok returned)
    /\ "bad" ∈ returned.
Proof.
  split; [reflexivity|].
  exists ["Provided registration bad for service vitess is invalid"],
         ["bad"; "vitess_host-1.main"].
  split; [reflexivity | apply list_elem_of_here].
Qed.

(** ** Replica count *)

(** C6: [get_instances] is 1 when the configuration has no ["replicas"] key
    and the configured value when it has one; ["replicas": 5] gives 5. *)
Theorem get_instances_replicas (self : VitessDeploymentConfig.t) (with_limit : bool) :
  (VitessDeploymentConfig.config_dict self !! "replicas" = None ->
   VitessDeploymentConfig.get_instances self with_limit = VInt 1) /\
  (forall v, VitessDeploymentConfig.config_dict self !! "replicas" = Some v ->
   VitessDeploymentConfig.get_instances self with_limit = v) /\
  (VitessDeploymentConfig.config_dict self !! "replicas" = Some (VInt 5) ->
   VitessDeploymentConfig.get_instances self with_limit = VInt 5).
Proof.
  unfold VitessDeploymentConfig.get_instances.
  split_and!; [intros -> | intros v -> | intros ->]; reflexivity.
Qed.

Lemma get_instances_replicas_witness :
  VitessDeploymentConfig.get_instances
    (VitessDeploymentConfig.mk "vitess" "superregion" "host-1"
       {[ "replicas" := VInt 5; "cpus" := VInt 2 ]} None "/nail/etc/services") true
  = VInt 5.
Proof.
  apply (proj2 (proj2 (get_instances_replicas
           (VitessDeploymentConfig.mk "vitess" "superregion" "host-1"
              {[ "replicas" := VInt 5; "cpus" := VInt 2 ]} None "/nail/etc/services")
           true))).
  reflexivity.
Defined.

(** ** Validation *)

Ltac in_list :=
  repeat first [apply list_elem_of_here | apply list_elem_of_further].

Section validation.
Import VitessDeploymentConfig.
Variable check : string -> gmap string value -> option string.
Implicit Types (self : VitessDeploymentConfig.t) (params : list string).


End validation.





(** ** The custom resource identity *)

(** C7: [cr_id] has exactly the keys group, version, namespace, plural and
    name; the first four are the constants of the resource kind and the
    namespace constant, and the name is [sanitised_cr_name] of the service
    and the instance, so equal inputs give the same name. *)
Theorem cr_id_fields (sanitised_cr_name : string -> string -> string)
    (service instance : string) :
  cr_id sanitised_cr_name service instance !! "group" = Some "yelp.com" /\
  cr_id sanitised_cr_name service instance !! "version" = Some "v1alpha1" /\
  cr_id sanitised_cr_name service instance !! "namespace" = Some KUBERNETES_NAMESPACE /\
  KUBERNETES_NAMESPACE = "paasta-vitess" /\
  cr_id sanitised_cr_name service instance !! "plural" = Some "vitess" /\
  cr_id sanitised_cr_name service instance !! "name"
  = Some (sanitised_cr_name service instance) /\
  dom (cr_id sanitised_cr_name service instance)
  = {[ "group"; "version"; "namespace"; "plural"; "name" ]} /\
  (forall service' instance',
      service' = service -> instance' = instance ->
      cr_id sanitised_cr_name service' instance' !! "name"
      = cr_id sanitised_cr_name service instance !! "name").
Proof.
  split_and!; try reflexivity.
  intros s' i' -> ->. reflexivity.
Qed.

Lemma cr_id_fields_witness :
  cr_id (fun service instance => service +:+ "-" +:+ instance) "vitess" "host-1" !! "name"
  = cr_id (fun service instance => service +:+ "-" +:+ instance) "vitess" "host-1" !! "name".
Proof.
  apply (proj2 (proj2 (proj2 (proj2 (proj2 (proj2 (proj2
           (cr_id_fields (fun service instance => service +:+ "-" +:+ instance)
              "vitess" "host-1")))))))); reflexivity.
Defined.

(** ** Loading an instance configuration *)

Section loading.
Variable store : SoaStore.
Variable get_branch : VitessDeploymentConfig.t -> string.
Variable get_deploy_group : VitessDeploymentConfig.t -> string.
Implicit Types (service instance cluster soa_dir : string).

Lemma load_without_deployments_outcome service instance cluster soa_dir :
  io_outcome
    (load_vitess_instance_config store get_branch get_deploy_group
       service instance cluster false soa_dir)
  = match stored_service_configuration store service soa_dir,
          stored_instance_config store service instance " vitesscluster" cluster soa_dir
    with
    | Ok general_config, Ok instance_config =>
        Ok (VitessDeploymentConfig.mk service cluster instance
              (utils.deep_merge_dictionaries instance_config general_config)
              None soa_dir)
    | Raise e, _ | Ok _, Raise e => Raise e
    end.
Proof.
  unfold load_vitess_instance_config, read_service_configuration,
    load_service_instance_config, io_bind, io_ret, io_outcome.
  destruct (stored_service_configuration store service soa_dir); [|reflexivity].
  destruct (stored_instance_config store service instance _ cluster soa_dir);
    reflexivity.
Qed.

Lemma load_without_deployments_trace service instance cluster soa_dir :
  Forall (fun ev => is_deployments_read ev = false)
    (io_trace
       (load_vitess_instance_config store get_branch get_deploy_group
          service instance cluster false soa_dir)).
Proof.
  unfold load_vitess_instance_config, read_service_configuration,
    load_service_instance_config, io_bind, io_ret, io_trace.
  destruct (stored_service_configuration store service soa_dir);
    [|repeat constructor].
  destruct (stored_instance_config store service instance _ cluster soa_dir);
    repeat constructor.
Qed.

Lemma load_with_deployments_outcome service instance cluster soa_dir :
  io_outcome
    (load_vitess_instance_config store get_branch get_deploy_group
       service instance cluster true soa_dir)
  = match stored_service_configuration store service soa_dir,
          stored_instance_config store service instance " vitesscluster" cluster soa_dir,
          stored_deployments_json store service soa_dir
    with
    | Ok general_config, Ok instance_config, Ok deployments_json =>
        let cfg := utils.deep_merge_dictionaries instance_config general_config in
        let temp := VitessDeploymentConfig.mk service cluster instance cfg None soa_dir in
        Ok (VitessDeploymentConfig.mk service cluster instance cfg
              (utils.get_branch_dict deployments_json service
                 (get_branch temp) (get_deploy_group temp))
              soa_dir)
    | Raise e, _, _ | Ok _, Raise e, _ | Ok _, Ok _, Raise e => Raise e
    end.
Proof.
  unfold load_vitess_instance_config, read_service_configuration,
    load_service_instance_config, load_v2_deployments_json,
    io_bind, io_ret, io_outcome.
  destruct (stored_service_configuration store service soa_dir); [|reflexivity].
  destruct (stored_instance_config store service instance _ cluster soa_dir);
    [|reflexivity].
  destruct (stored_deployments_json store service soa_dir); reflexivity.
Qed.
End loading.

(** C8: when the configuration and the deployments index are read and the
    index has no entry for the service, the branch and the deploy group of
    the merged configuration, the lookup gives the absent record and
    [load_vitess_instance_config] returns the merged configuration with
    [branch_dict] absent: nothing is raised. *)
Theorem load_not_yet_deployed
    (store : SoaStore) (get_branch get_deploy_group : VitessDeploymentConfig.t -> string)
    (service instance cluster soa_dir : string)
    (general_config instance_config : gmap string value)
    (deployments_json : utils.DeploymentsJsonV2) :
  let cfg := utils.deep_merge_dictionaries instance_config general_config in
  let temp := VitessDeploymentConfig.mk service cluster instance cfg None soa_dir in
  stored_service_configuration store service soa_dir = Ok general_config ->
  stored_instance_config store service instance " vitesscluster" cluster soa_dir
  = Ok instance_config ->
  stored_deployments_json store service soa_dir = Ok deployments_json ->
  deployments_json !! (service, get_branch temp, get_deploy_group temp) = None ->
  utils.get_branch_dict deployments_json service (get_branch temp) (get_deploy_group temp)
  = None
  /\ io_outcome
       (load_vitess_instance_config store get_branch get_deploy_group
          service instance cluster true soa_dir)
     = Ok (VitessDeploymentConfig.mk service cluster instance cfg None soa_dir).
Proof.
  intros cfg temp Hgeneral Hinstance Hindex Hmissing.
  split; [exact Hmissing|].
  rewrite load_with_deployments_outcome.
  rewrite Hgeneral, Hinstance, Hindex. cbn zeta.
  unfold utils.get_branch_dict. fold cfg. fold temp. rewrite Hmissing. reflexivity.
Qed.

(** C10: with [load_deployments=False] the deployments index is never
    read; what is returned has [branch_dict] absent; it is returned whenever
    the two configuration reads succeed, with the merged configuration; and
    whenever the load with [load_deployments=True] returns, the load without
    returns the same instance configuration but for [branch_dict]. *)
Theorem load_without_deployments
    (store : SoaStore) (get_branch get_deploy_group : VitessDeploymentConfig.t -> string)
    (service instance cluster soa_dir : string) :
  let load := load_vitess_instance_config store get_branch get_deploy_group
                service instance cluster in
  Forall (fun ev => is_deployments_read ev = false) (io_trace (load false soa_dir))
  /\ (forall c, io_outcome (load false soa_dir) = Ok c ->
                VitessDeploymentConfig.branch_dict c = None)
  /\ (forall general_config instance_config,
        stored_service_configuration store service soa_dir = Ok general_config ->
        stored_instance_config store service instance " vitesscluster" cluster soa_dir
        = Ok instance_config ->
        io_outcome (load false soa_dir)
        = Ok (VitessDeploymentConfig.mk service cluster instance
                (utils.deep_merge_dictionaries instance_config general_config)
                None soa_dir))
  /\ (forall c', io_outcome (load true soa_dir) = Ok c' ->
        exists c, io_outcome (load false soa_dir) = Ok c
                  /\ VitessDeploymentConfig.config_dict c = VitessDeploymentConfig.config_dict c'
                  /\ VitessDeploymentConfig.branch_dict c = None
                  /\ c = VitessDeploymentConfig.mk
                           (VitessDeploymentConfig.service c')
                           (VitessDeploymentConfig.cluster c')
                           (VitessDeploymentConfig.instance c')
                           (VitessDeploymentConfig.config_dict c')
                           None
                           (VitessDeploymentConfig.soa_dir c')).
Proof.
  intros load. subst load. split_and!.
  - apply load_without_deployments_trace.
  - intros c. rewrite load_without_deployments_outcome.
    destruct (stored_service_configuration store service soa_dir); [|discriminate].
    destruct (stored_instance_config store service instance _ cluster soa_dir);
      intros [= <-]. reflexivity.
  - intros g i Hg Hi. rewrite load_without_deployments_outcome.
    rewrite Hg, Hi. reflexivity.
  - intros c'. rewrite load_with_deployments_outcome, load_without_deployments_outcome.
    destruct (stored_service_configuration store service soa_dir); [|discriminate].
    destruct (stored_instance_config store service instance _ cluster soa_dir);
      [|discriminate].
    destruct (stored_deployments_json store service soa_dir); [|discriminate].
    cbn zeta. intros [= <-]. eexists. split_and!; reflexivity.
Qed.

Lemma load_not_yet_deployed_witness :
  io_outcome
    (load_vitess_instance_config sample_store sample_get_branch sample_get_deploy_group
       "vitess" "host-1" "superregion" true "/nail/etc/services")
  = Ok (VitessDeploymentConfig.mk "vitess" "superregion" "host-1"
          (utils.deep_merge_dictionaries
             {[ "replicas" := VInt 3 ]}
             {[ "cpus" := VInt 1; "deploy_group" := VStr "prod.main" ]})
          None "/nail/etc/services").
Proof.
  apply (load_not_yet_deployed sample_store sample_get_branch sample_get_deploy_group
           "vitess" "host-1" "superregion" "/nail/etc/services"
           {[ "cpus" := VInt 1; "deploy_group" := VStr "prod.main" ]}
           {[ "replicas" := VInt 3 ]}
           {[ ("vitess", "paasta-superregion.host-1", "dev.main")
                := {[ "docker_image" := VStr "services-vitess:paasta-abc" ]} ]}).
  - reflexivity.
  - reflexivity.
  - reflexivity.
  - vm_compute. reflexivity.
Defined.

Lemma load_without_deployments_witness :
  io_outcome
    (load_vitess_instance_config sample_store sample_get_branch sample_get_deploy_group
       "vitess" "host-1" "superregion" false "/nail/etc/services")
  = Ok (VitessDeploymentConfig.mk "vitess" "superregion" "host-1"
          (utils.deep_merge_dictionaries
             {[ "replicas" := VInt 3 ]}
             {[ "cpus" := VInt 1; "deploy_group" := VStr "prod.main" ]})
          None "/nail/etc/services").
Proof.
  apply (proj1 (proj2 (proj2
           (load_without_deployments sample_store sample_get_branch
              sample_get_deploy_group "vitess" "host-1" "superregion"
              "/nail/etc/services")))).
  - reflexivity.
  - reflexivity.
Defined.

(** ** The name sanitiser *)

Section sanitiser_facts.
Import kubernetes_tools.
Variable allowed : ascii -> bool.
Variable replacement : ascii -> string.
Variable max_len : nat.
(** What replaces an invalid character is made of valid ones. *)
Hypothesis replacement_allowed :
  forall c, all_allowed allowed (replacement c) = true.

Lemma all_allowed_app (a b : string) :
  all_allowed allowed (a +:+ b)
  = all_allowed allowed a && all_allowed allowed b.
Proof.
  induction a as [|c a IH]; simpl; [reflexivity|].
  rewrite IH. apply andb_assoc.
Qed.

Lemma sanitise_char_allowed c :
  all_allowed allowed (sanitise_char allowed replacement c) = true.
Proof.
  unfold sanitise_char. destruct (allowed c) eqn:Hc; [|apply replacement_allowed].
  simpl. by rewrite Hc.
Qed.

Lemma sanitise_chars_allowed s :
  all_allowed allowed (sanitise_chars allowed replacement s) = true.
Proof.
  induction s as [|c s IH]; simpl; [reflexivity|].
  by rewrite all_allowed_app, sanitise_char_allowed, IH.
Qed.

Lemma truncate_allowed n s :
  all_allowed allowed s = true -> all_allowed allowed (truncate n s) = true.
Proof.
  revert s. induction n as [|n IH]; intros [|c s]; simpl; try reflexivity.
  intros H. apply andb_true_iff in H as [Hc Hs].
  by rewrite Hc, (IH _ Hs).
Qed.

Lemma truncate_length n s : String.length (truncate n s) <= n.
Proof.
  revert s. induction n as [|n IH]; intros [|c s]; simpl; try lia.
  specialize (IH s). lia.
Qed.

Lemma truncate_fits n s : String.length s <= n -> truncate n s = s.
Proof.
  revert s. induction n as [|n IH]; intros [|c s]; simpl; try reflexivity; try lia.
  intros H. rewrite IH by lia. reflexivity.
Qed.

Lemma sanitise_chars_fixes_allowed s :
  all_allowed allowed s = true -> sanitise_chars allowed replacement s = s.
Proof.
  induction s as [|c s IH]; simpl; [reflexivity|].
  intros H. apply andb_true_iff in H as [Hc Hs].
  unfold sanitise_char. rewrite Hc, (IH Hs). reflexivity.
Qed.

Lemma sanitise_fixes_valid_names s :
  all_allowed allowed s = true -> String.length s <= max_len ->
  sanitise_kubernetes_name allowed replacement max_len s = s.
Proof.
  intros Hs Hlen. unfold sanitise_kubernetes_name.
  rewrite (sanitise_chars_fixes_allowed _ Hs). by apply truncate_fits.
Qed.
End sanitiser_facts.

(** C9: the sanitiser is a function of the name alone that gives a result
    for every string, a name of valid characters within the length bound,
    and sanitising a sanitised name changes nothing. *)
Theorem sanitise_kubernetes_name_idempotent
    (allowed : ascii -> bool) (replacement : ascii -> string) (max_len : nat)
    (name : string) :
  (forall c, kubernetes_tools.all_allowed allowed (replacement c) = true) ->
  let sanitise := kubernetes_tools.sanitise_kubernetes_name allowed replacement max_len in
  kubernetes_tools.all_allowed allowed (sanitise name) = true
  /\ String.length (sanitise name) <= max_len
  /\ sanitise (sanitise name) = sanitise name.
Proof.
  intros Hrep sanitise. subst sanitise.
  assert (Hvalid : kubernetes_tools.all_allowed allowed
            (kubernetes_tools.sanitise_kubernetes_name allowed replacement max_len name)
          = true).
  { apply truncate_allowed, sanitise_chars_allowed, Hrep. }
  split_and!.
  - exact Hvalid.
  - apply truncate_length.
  - apply sanitise_fixes_valid_names; [exact Hvalid | apply truncate_length].
Qed.

Lemma sanitise_kubernetes_name_idempotent_witness :
  kubernetes_tools.sanitise_kubernetes_name
    kubernetes_tools.dns_label_char kubernetes_tools.dns_replacement
    kubernetes_tools.dns_max_len
    (kubernetes_tools.sanitise_kubernetes_name
       kubernetes_tools.dns_label_char kubernetes_tools.dns_replacement
       kubernetes_tools.dns_max_len "My_Service.Name")
  = kubernetes_tools.sanitise_kubernetes_name
      kubernetes_tools.dns_label_char kubernetes_tools.dns_replacement
      kubernetes_tools.dns_max_len "My_Service.Name".
Proof.
  apply (sanitise_kubernetes_name_idempotent
           kubernetes_tools.dns_label_char kubernetes_tools.dns_replacement
           kubernetes_tools.dns_max_len "My_Service.Name").
  intros c. unfold kubernetes_tools.dns_replacement.
  destruct c as [[] [] [] [] [] [] [] []]; vm_compute; reflexivity.
Defined.

(** ** Worked examples *)

Example split_two_parts : utils.split "." "vitess_host-1.main" = ["vitess_host-1"; "main"].
Proof. reflexivity. Qed.

Example split_empty_string : utils.split "." "" = [""].
Proof. reflexivity. Qed.

Example decompose_three_parts_invalid :
  utils.decompose_job_id "a.b.c" = Raise (InvalidJobNameError "a.b.c").
Proof. reflexivity. Qed.

Example sanitise_dns_label :
  kubernetes_tools.sanitise_kubernetes_name
    kubernetes_tools.dns_label_char kubernetes_tools.dns_replacement
    kubernetes_tools.dns_max_len "My_Service.Name"
  = "my-service-name".
Proof. reflexivity. Qed.

Example load_with_deployments_reads_index :
  io_trace
    (load_vitess_instance_config sample_store sample_get_branch sample_get_deploy_group
       "vitess" "host-1" "superregion" true "/nail/etc/services")
  = [EvReadServiceConfiguration "vitess" "/nail/etc/services";
     EvLoadServiceInstanceConfig "vitess" "host-1" " vitesscluster" "superregion"
       "/nail/etc/services";
     EvLoadV2DeploymentsJson "vitess" "/nail/etc/services"].
Proof. reflexivity. Qed.

Example load_missing_configuration_raises :
  load_vitess_instance_config sample_store sample_get_branch sample_get_deploy_group
    "other" "host-1" "superregion" false "/nail/etc/services"
  = ([EvReadServiceConfiguration "other" "/nail/etc/services"],
     Raise MissingConfiguration).
Proof. reflexivity. Qed.

(** * Further properties of the module *)

(** ** Strings *)

Lemma string_app_length (a b : string) :
  String.length (a +:+ b) = String.length a + String.length b.
Proof. induction a as [|c a IH]; simpl; [reflexivity | by rewrite IH]. Qed.

Lemma string_app_inv_head (p x y : string) : p +:+ x = p +:+ y -> x = y.
Proof.
  induction p as [|c p IH]; simpl; [done|]. intros [= H]. by apply IH.
Qed.

Lemma string_app_inv_tail (x y t : string) : x +:+ t = y +:+ t -> x = y.
Proof.
  revert y. induction x as [|c x IH]; intros [|c' y]; simpl; intros H.
  - reflexivity.
  - apply (f_equal String.length) in H.
    cbn in H. rewrite !string_app_length in H. cbn in H. lia.
  - apply (f_equal String.length) in H.
    cbn in H. rewrite !string_app_length in H. cbn in H. lia.
  - cbn in H. injection H as -> H. f_equal. by apply IH.
Qed.

Lemma contains_app (c : ascii) (a b : string) :
  utils.contains c (a +:+ b) = utils.contains c a || utils.contains c b.
Proof.
  induction a as [|c' a IH]; simpl; [reflexivity|].
  rewrite IH. apply orb_assoc.
Qed.

(** ** Registrations, continued *)

Section registrations_more.
Import VitessDeploymentConfig.
Implicit Types (self : VitessDeploymentConfig.t) (registrations : list string).

Lemma get_registrations_configured self registrations :
  configured_registrations self = Some registrations ->
  get_registrations self
  = Some (invalid_registration_msg self
            <$> filter (fun r => utils.decomposes r = false) registrations,
          Ok (match registrations with
              | [] => [utils.compose_job_id (get_service_name_smartstack self) "main"]
              | _ => registrations
              end)).
Proof.
  unfold configured_registrations, get_registrations. intros ->.
  cbn [mbind option_bind]. by rewrite get_registrations_of_spec.
Qed.

Lemma configured_registrations_insert self registrations :
  configured_registrations
    (mk (service self) (cluster self) (instance self)
        (<["registrations" := VList (VStr <$> registrations)]> (config_dict self))
        (branch_dict self) (soa_dir self))
  = Some registrations.
Proof.
  unfold configured_registrations. cbn [config_dict].
  rewrite lookup_insert_eq. cbn [from_option]. unfold id.
  apply as_str_list_strings.
Qed.

Lemma filter_invalid_nil registrations :
  filter (fun r => utils.decomposes r = false) registrations = []
  <-> Forall (fun r => utils.decomposes r = true) registrations.
Proof.
  induction registrations as [|r rs IH].
  - split; [constructor | reflexivity].
  - destruct (utils.decomposes r) eqn:Hr.
    + rewrite filter_cons_False by (rewrite Hr; discriminate).
      rewrite IH. split; [by constructor | by inversion 1].
    + rewrite filter_cons_True by exact Hr.
      split; [discriminate | inversion 1; congruence].
Qed.
End registrations_more.

(** X1: whatever list of registration strings is configured, absent and
    empty included, [get_registrations] returns a list that is never empty:
    it has as many entries as the configured list, and one when that list is
    empty. *)
Theorem get_registrations_never_empty
    (self : VitessDeploymentConfig.t) (registrations : list string) :
  VitessDeploymentConfig.configured_registrations self = Some registrations ->
  exists log returned,
    VitessDeploymentConfig.get_registrations self = Some (log, Ok returned)
    /\ returned <> []
    /\ length returned = Nat.max 1 (length registrations).
Proof.
  intros H. rewrite (get_registrations_configured _ _ H).
  eexists _, _. split; [reflexivity|].
  destruct registrations as [|r rs]; simpl; split; (discriminate || lia || reflexivity).
Qed.

Lemma get_registrations_never_empty_witness :
  exists log returned,
    VitessDeploymentConfig.get_registrations
      (VitessDeploymentConfig.mk "vitess" "superregion" "host-1"
         {[ "registrations" := VList [] ]} None "/nail/etc/services")
    = Some (log, Ok returned)
    /\ returned <> []
    /\ length returned = Nat.max 1 (length (@nil string)).
Proof.
  apply (get_registrations_never_empty
           (VitessDeploymentConfig.mk "vitess" "superregion" "host-1"
              {[ "registrations" := VList [] ]} None "/nail/etc/services") []).
  reflexivity.
Defined.

(** X2: [get_registrations] logs exactly one error per configured
    registration that does not decompose, so never more errors than
    registrations, and it logs nothing exactly when every configured
    registration decomposes. *)
Theorem get_registrations_error_count
    (self : VitessDeploymentConfig.t) (registrations : list string) :
  VitessDeploymentConfig.configured_registrations self = Some registrations ->
  exists log returned,
    VitessDeploymentConfig.get_registrations self = Some (log, Ok returned)
    /\ length log
       = length (filter (fun r => utils.decomposes r = false) registrations)
    /\ length log <= length registrations
    /\ (log = [] <-> Forall (fun r => utils.decomposes r = true) registrations).
Proof.
  intros H. rewrite (get_registrations_configured _ _ H).
  eexists _, _. split; [reflexivity|]. split_and!.
  - apply length_fmap.
  - rewrite length_fmap. apply length_filter.
  - rewrite <- filter_invalid_nil. split.
    + intros Hnil. by apply fmap_nil_inv in Hnil.
    + intros ->. reflexivity.
Qed.

Lemma get_registrations_error_count_witness :
  exists log returned,
    VitessDeploymentConfig.get_registrations
      (VitessDeploymentConfig.mk "vitess" "superregion" "host-1"
         {[ "registrations" := VList [VStr "a.b.c"; VStr "vitess_host-1.main"; VStr "x"] ]}
         None "/nail/etc/services")
    = Some (log, Ok returned)
    /\ length log
       = length (filter (fun r => utils.decomposes r = false)
                   ["a.b.c"; "vitess_host-1.main"; "x"])
    /\ length log <= length ["a.b.c"; "vitess_host-1.main"; "x"]
    /\ (log = [] <-> Forall (fun r => utils.decomposes r = true)
                       ["a.b.c"; "vitess_host-1.main"; "x"]).
Proof.
  apply (get_registrations_error_count
           (VitessDeploymentConfig.mk "vitess" "superregion" "host-1"
              {[ "registrations" :=
                   VList [VStr "a.b.c"; VStr "vitess_host-1.main"; VStr "x"] ]}
              None "/nail/etc/services")
           ["a.b.c"; "vitess_host-1.main"; "x"]).
  reflexivity.
Defined.

(** X3: the registration synthesized for an empty or absent configured
    list is a function of the instance name alone: two configurations get
    the same one exactly when their instance names are equal, whatever their
    services and clusters. *)
Theorem default_registration_per_instance (self1 self2 : VitessDeploymentConfig.t) :
  VitessDeploymentConfig.configured_registrations self1 = Some [] ->
  VitessDeploymentConfig.configured_registrations self2 = Some [] ->
  exists r1 r2,
    VitessDeploymentConfig.get_registrations self1 = Some ([], Ok [r1])
    /\ VitessDeploymentConfig.get_registrations self2 = Some ([], Ok [r2])
    /\ (r1 = r2 <->
        VitessDeploymentConfig.instance self1 = VitessDeploymentConfig.instance self2).
Proof.
  intros H1 H2.
  rewrite (get_registrations_configured _ _ H1), (get_registrations_configured _ _ H2).
  eexists _, _. split_and!; [reflexivity | reflexivity |].
  unfold utils.compose_job_id, VitessDeploymentConfig.get_service_name_smartstack,
    VitessDeploymentConfig.get_instance.
  split.
  - intros H. apply string_app_inv_tail in H. by apply string_app_inv_head in H.
  - intros ->. reflexivity.
Qed.

Lemma default_registration_per_instance_witness :
  exists r1 r2,
    VitessDeploymentConfig.get_registrations
      (VitessDeploymentConfig.mk "vitess" "superregion" "host-1" ∅ None "/nail/etc/services")
    = Some ([], Ok [r1])
    /\ VitessDeploymentConfig.get_registrations
         (VitessDeploymentConfig.mk "other" "region-2" "host-1"
            {[ "registrations" := VList [] ]} None "/nail/etc/services")
       = Some ([], Ok [r2])
    /\ (r1 = r2 <-> "host-1" = "host-1").
Proof.
  apply (default_registration_per_instance
           (VitessDeploymentConfig.mk "vitess" "superregion" "host-1" ∅ None
              "/nail/etc/services")
           (VitessDeploymentConfig.mk "other" "region-2" "host-1"
              {[ "registrations" := VList [] ]} None "/nail/etc/services"));
    reflexivity.
Defined.

(** X4: when the instance name holds no separator, the synthesized
    registration decomposes into the smartstack service name and the nerve
    namespace of the configuration. *)
Theorem default_registration_decomposes (self : VitessDeploymentConfig.t) :
  VitessDeploymentConfig.configured_registrations self = Some [] ->
  utils.contains utils.SPACER (VitessDeploymentConfig.instance self) = false ->
  exists r,
    VitessDeploymentConfig.get_registrations self = Some ([], Ok [r])
    /\ utils.decompose_job_id r
       = Ok (VitessDeploymentConfig.get_service_name_smartstack self,
             VitessDeploymentConfig.get_nerve_namespace self).
Proof.
  intros H Hinst. rewrite (get_registrations_configured _ _ H).
  eexists. split; [reflexivity|].
  unfold utils.decompose_job_id, utils.compose_job_id.
  rewrite split_at_first_sep.
  - rewrite split_without_sep by reflexivity. reflexivity.
  - unfold VitessDeploymentConfig.get_service_name_smartstack,
      VitessDeploymentConfig.get_instance.
    rewrite contains_app, Hinst. reflexivity.
Qed.

Lemma default_registration_decomposes_witness :
  exists r,
    VitessDeploymentConfig.get_registrations
      (VitessDeploymentConfig.mk "vitess" "superregion" "host-1" ∅ None "/nail/etc/services")
    = Some ([], Ok [r])
    /\ utils.decompose_job_id r = Ok ("vitess_host-1", "main").
Proof.
  apply (default_registration_decomposes
           (VitessDeploymentConfig.mk "vitess" "superregion" "host-1" ∅ None
              "/nail/etc/services"));
    reflexivity.
Defined.

(** X5: the list [get_registrations] returns is stable: configured back as
    the registrations of the same instance, it is returned unchanged. *)
Theorem get_registrations_stable
    (self : VitessDeploymentConfig.t) (registrations : list string) :
  VitessDeploymentConfig.configured_registrations self = Some registrations ->
  exists log returned log',
    VitessDeploymentConfig.get_registrations self = Some (log, Ok returned)
    /\ VitessDeploymentConfig.get_registrations
         (VitessDeploymentConfig.mk
            (VitessDeploymentConfig.service self)
            (VitessDeploymentConfig.cluster self)
            (VitessDeploymentConfig.instance self)
            (<["registrations" := VList (VStr <$> returned)]>
               (VitessDeploymentConfig.config_dict self))
            (VitessDeploymentConfig.branch_dict self)
            (VitessDeploymentConfig.soa_dir self))
       = Some (log', Ok returned).
Proof.
  intros H. rewrite (get_registrations_configured _ _ H).
  assert (exists r rs,
             match registrations with
             | [] => [utils.compose_job_id
                        (VitessDeploymentConfig.get_service_name_smartstack self) "main"]
             | _ => registrations
             end = r :: rs) as (r & rs & ->)
    by (destruct registrations; eauto).
  eexists _, (r :: rs), _. split; [reflexivity|].
  rewrite (get_registrations_configured _ _
             (configured_registrations_insert self (r :: rs))).
  reflexivity.
Qed.

Lemma get_registrations_stable_witness :
  exists log returned log',
    VitessDeploymentConfig.get_registrations
      (VitessDeploymentConfig.mk "vitess" "superregion" "host-1" ∅ None "/nail/etc/services")
    = Some (log, Ok returned)
    /\ VitessDeploymentConfig.get_registrations
         (VitessDeploymentConfig.mk "vitess" "superregion" "host-1"
            (<["registrations" := VList (VStr <$> returned)]> ∅)
            None "/nail/etc/services")
       = Some (log', Ok returned).
Proof.
  apply (get_registrations_stable
           (VitessDeploymentConfig.mk "vitess" "superregion" "host-1" ∅ None
              "/nail/etc/services") []).
  reflexivity.
Defined.

(** ** The custom resource identity, continued *)

(** X7: two (service, instance) pairs get the same custom resource
    identity exactly when [sanitised_cr_name] gives them the same name, and
    the namespace of the identity is the one every instance configuration
    reports. *)
Theorem cr_id_collides_with_name
    (sanitised_cr_name : string -> string -> string)
    (service instance service' instance' : string) (self : VitessDeploymentConfig.t) :
  (cr_id sanitised_cr_name service instance = cr_id sanitised_cr_name service' instance'
   <-> sanitised_cr_name service instance = sanitised_cr_name service' instance')
  /\ cr_id sanitised_cr_name service instance !! "namespace"
     = Some (VitessDeploymentConfig.get_kubernetes_namespace self).
Proof.
  split; [|reflexivity]. split.
  - intros H. apply (f_equal (fun m : gmap string string => m !! "name")) in H.
    cbv beta in H.
    assert (Hname : forall s i, cr_id sanitised_cr_name s i !! "name"
                                = Some (sanitised_cr_name s i)) by reflexivity.
    rewrite !Hname in H. by injection H.
  - intros H. unfold cr_id. by rewrite H.
Qed.

(** ** Loading an instance configuration, continued *)

Section loading_more.
Variable store : SoaStore.
Variable get_branch : VitessDeploymentConfig.t -> string.
Variable get_deploy_group : VitessDeploymentConfig.t -> string.
Implicit Types (service instance cluster soa_dir : string) (load_deployments : bool).

Lemma load_outcome service instance cluster load_deployments soa_dir :
  io_outcome
    (load_vitess_instance_config store get_branch get_deploy_group
       service instance cluster load_deployments soa_dir)
  = match stored_service_configuration store service soa_dir,
          stored_instance_config store service instance " vitesscluster" cluster soa_dir
    with
    | Ok general_config, Ok instance_config =>
        let cfg := utils.deep_merge_dictionaries instance_config general_config in
        let temp := VitessDeploymentConfig.mk service cluster instance cfg None soa_dir in
        if load_deployments then
          match stored_deployments_json store service soa_dir with
          | Ok deployments_json =>
              Ok (VitessDeploymentConfig.mk service cluster instance cfg
                    (deployments_json
                       !! (service, get_branch temp, get_deploy_group temp))
                    soa_dir)
          | Raise e => Raise e
          end
        else Ok temp
    | Raise e, _ | Ok _, Raise e => Raise e
    end.
Proof.
  destruct load_deployments.
  - rewrite load_with_deployments_outcome.
    destruct (stored_service_configuration store service soa_dir); [|reflexivity].
    destruct (stored_instance_config store service instance _ cluster soa_dir);
      [|reflexivity].
    destruct (stored_deployments_json store service soa_dir); reflexivity.
  - rewrite load_without_deployments_outcome.
    destruct (stored_service_configuration store service soa_dir); [|reflexivity].
    destruct (stored_instance_config store service instance _ cluster soa_dir);
      reflexivity.
Qed.

Lemma load_outcome_fields service instance cluster load_deployments soa_dir c :
  io_outcome
    (load_vitess_instance_config store get_branch get_deploy_group
       service instance cluster load_deployments soa_dir) = Ok c ->
  exists general_config instance_config,
    stored_service_configuration store service soa_dir = Ok general_config
    /\ stored_instance_config store service instance " vitesscluster" cluster soa_dir
       = Ok instance_config
    /\ c = VitessDeploymentConfig.mk service cluster instance
             (utils.deep_merge_dictionaries instance_config general_config)
             (VitessDeploymentConfig.branch_dict c) soa_dir.
Proof.
  rewrite load_outcome.
  destruct (stored_service_configuration store service soa_dir) as [g|]; [|discriminate].
  destruct (stored_instance_config store service instance _ cluster soa_dir) as [ic|];
    [|discriminate].
  cbn zeta. intros H. exists g, ic. split_and!; try reflexivity.
  destruct load_deployments.
  - destruct (stored_deployments_json store service soa_dir); [|discriminate].
    injection H as <-. reflexivity.
  - injection H as <-. reflexivity.
Qed.
End loading_more.

(** X8: [load_vitess_instance_config] calls each reader at most once and in
    a fixed order: the service configuration, then the instance
    configuration under the instance type [" vitesscluster"], then, only
    when [load_deployments] is set, the deployments index; a reader is
    called only when the ones before it returned. *)
Theorem load_reads_in_order
    (store : SoaStore) (get_branch get_deploy_group : VitessDeploymentConfig.t -> string)
    (service instance cluster : string) (load_deployments : bool) (soa_dir : string) :
  io_trace
    (load_vitess_instance_config store get_branch get_deploy_group
       service instance cluster load_deployments soa_dir)
  = EvReadServiceConfiguration service soa_dir ::
    match stored_service_configuration store service soa_dir with
    | Raise _ => []
    | Ok _ =>
        EvLoadServiceInstanceConfig service instance " vitesscluster" cluster soa_dir ::
        match stored_instance_config store service instance " vitesscluster" cluster soa_dir
        with
        | Raise _ => []
        | Ok _ => if load_deployments
                  then [EvLoadV2DeploymentsJson service soa_dir] else []
        end
    end.
Proof.
  unfold load_vitess_instance_config, read_service_configuration,
    load_service_instance_config, load_v2_deployments_json, io_bind, io_ret, io_trace.
  destruct (stored_service_configuration store service soa_dir); [|reflexivity].
  destruct (stored_instance_config store service instance _ cluster soa_dir);
    [|reflexivity].
  destruct load_deployments; [|reflexivity].
  destruct (stored_deployments_json store service soa_dir); reflexivity.
Qed.

(** X9: the configuration that [load_vitess_instance_config] returns is
    the one asked for: its service, cluster, instance and soa_dir are the
    arguments of the call, and its [config_dict] is the instance
    configuration merged over the service configuration, whether or not the
    deployments are loaded. *)
Theorem load_returns_requested_instance
    (store : SoaStore) (get_branch get_deploy_group : VitessDeploymentConfig.t -> string)
    (service instance cluster : string) (load_deployments : bool) (soa_dir : string)
    (c : VitessDeploymentConfig.t) :
  io_outcome
    (load_vitess_instance_config store get_branch get_deploy_group
       service instance cluster load_deployments soa_dir) = Ok c ->
  VitessDeploymentConfig.service c = service
  /\ VitessDeploymentConfig.cluster c = cluster
  /\ VitessDeploymentConfig.instance c = instance
  /\ VitessDeploymentConfig.soa_dir c = soa_dir
  /\ exists general_config instance_config,
       stored_service_configuration store service soa_dir = Ok general_config
       /\ stored_instance_config store service instance " vitesscluster" cluster soa_dir
          = Ok instance_config
       /\ VitessDeploymentConfig.config_dict c
          = utils.deep_merge_dictionaries instance_config general_config.
Proof.
  intros H. apply load_outcome_fields in H as (g & ic & Hg & Hic & ->).
  split_and!; try reflexivity. exists g, ic. split_and!; done.
Qed.

Lemma load_returns_requested_instance_witness :
  VitessDeploymentConfig.service
    (VitessDeploymentConfig.mk "vitess" "superregion" "host-1"
       (utils.deep_merge_dictionaries
          {[ "replicas" := VInt 3 ]}
          {[ "cpus" := VInt 1; "deploy_group" := VStr "prod.main" ]})
       None "/nail/etc/services") = "vitess".
Proof.
  apply (load_returns_requested_instance sample_store sample_get_branch
           sample_get_deploy_group "vitess" "host-1" "superregion" true
           "/nail/etc/services").
  vm_compute. reflexivity.
Defined.

(** X10: with [load_deployments] set, the [branch_dict] of the returned
    configuration is what the deployments index holds for the service, and
    for the branch and the deploy group read off that same configuration
    with no [branch_dict]: the stored record when there is one. *)
Theorem load_branch_dict_lookup
    (store : SoaStore) (get_branch get_deploy_group : VitessDeploymentConfig.t -> string)
    (service instance cluster soa_dir : string)
    (deployments_json : utils.DeploymentsJsonV2) (c : VitessDeploymentConfig.t) :
  io_outcome
    (load_vitess_instance_config store get_branch get_deploy_group
       service instance cluster true soa_dir) = Ok c ->
  stored_deployments_json store service soa_dir = Ok deployments_json ->
  let temp := VitessDeploymentConfig.mk
                (VitessDeploymentConfig.service c) (VitessDeploymentConfig.cluster c)
                (VitessDeploymentConfig.instance c) (VitessDeploymentConfig.config_dict c)
                None (VitessDeploymentConfig.soa_dir c) in
  VitessDeploymentConfig.branch_dict c
  = utils.get_branch_dict deployments_json service
      (get_branch temp) (get_deploy_group temp).
Proof.
  intros H Hidx. rewrite load_outcome in H.
  destruct (stored_service_configuration store service soa_dir) as [g|]; [|discriminate].
  destruct (stored_instance_config store service instance _ cluster soa_dir) as [ic|];
    [|discriminate].
  cbn zeta in H. rewrite Hidx in H. injection H as <-. reflexivity.
Qed.

Lemma load_branch_dict_lookup_witness :
  VitessDeploymentConfig.branch_dict
    (VitessDeploymentConfig.mk "vitess" "superregion" "host-1"
       (utils.deep_merge_dictionaries
          {[ "replicas" := VInt 3 ]}
          {[ "cpus" := VInt 1; "deploy_group" := VStr "prod.main" ]})
       (Some {[ "docker_image" := VStr "services-vitess:paasta-abc" ]})
       "/nail/etc/services")
  = utils.get_branch_dict
      {[ ("vitess", "paasta-superregion.host-1", "dev.main")
           := {[ "docker_image" := VStr "services-vitess:paasta-abc" ]} ]}
      "vitess" "paasta-superregion.host-1" "dev.main".
Proof.
  apply (load_branch_dict_lookup sample_store sample_get_branch (fun _ => "dev.main")
           "vitess" "host-1" "superregion" "/nail/etc/services"
           {[ ("vitess", "paasta-superregion.host-1", "dev.main")
                := {[ "docker_image" := VStr "services-vitess:paasta-abc" ]} ]}
           (VitessDeploymentConfig.mk "vitess" "superregion" "host-1"
              (utils.deep_merge_dictionaries
                 {[ "replicas" := VInt 3 ]}
                 {[ "cpus" := VInt 1; "deploy_group" := VStr "prod.main" ]})
              (Some {[ "docker_image" := VStr "services-vitess:paasta-abc" ]})
              "/nail/etc/services")).
  - vm_compute. reflexivity.
  - reflexivity.
Defined.

(** X11: an exception of a reader is not caught: when the service
    configuration read raises, or it returns and the instance configuration
    read raises, [load_vitess_instance_config] raises the same exception,
    whatever [load_deployments]; when both return and the deployments read
    raises, the load raises the same exception with [load_deployments] set,
    and returns a configuration without it. *)
Theorem load_propagates_reader_exceptions
    (store : SoaStore) (get_branch get_deploy_group : VitessDeploymentConfig.t -> string)
    (service instance cluster soa_dir : string) (e : exn) :
  let load := load_vitess_instance_config store get_branch get_deploy_group
                service instance cluster in
  (stored_service_configuration store service soa_dir = Raise e ->
   forall load_deployments, io_outcome (load load_deployments soa_dir) = Raise e)
  /\ (forall general_config,
        stored_service_configuration store service soa_dir = Ok general_config ->
        stored_instance_config store service instance " vitesscluster" cluster soa_dir
        = Raise e ->
        forall load_deployments, io_outcome (load load_deployments soa_dir) = Raise e)
  /\ (forall general_config instance_config,
        stored_service_configuration store service soa_dir = Ok general_config ->
        stored_instance_config store service instance " vitesscluster" cluster soa_dir
        = Ok instance_config ->
        stored_deployments_json store service soa_dir = Raise e ->
        io_outcome (load true soa_dir) = Raise e
        /\ exists c, io_outcome (load false soa_dir) = Ok c).
Proof.
  intros load. subst load. split_and!.
  - intros H b. rewrite load_outcome, H. reflexivity.
  - intros g Hg H b. rewrite load_outcome, Hg, H. reflexivity.
  - intros g ic Hg Hic H. rewrite !load_outcome, Hg, Hic, H. cbn zeta. eauto.
Qed.

Lemma load_propagates_reader_exceptions_witness :
  io_outcome
    (load_vitess_instance_config sample_store sample_get_branch sample_get_deploy_group
       "other" "host-1" "superregion" true "/nail/etc/services")
  = Raise MissingConfiguration.
Proof.
  apply (proj1 (load_propagates_reader_exceptions sample_store sample_get_branch
                  sample_get_deploy_group "other" "host-1" "superregion"
                  "/nail/etc/services" MissingConfiguration)).
  reflexivity.
Defined.

(** X12: the replica count of a loaded configuration follows the layers:
    a number set at instance level wins over the service level; with none
    at instance level the service-level value is used; with none at either
    level it is 1. *)
Theorem loaded_replica_count
    (store : SoaStore) (get_branch get_deploy_group : VitessDeploymentConfig.t -> string)
    (service instance cluster : string) (load_deployments : bool) (soa_dir : string)
    (general_config instance_config : gmap string value)
    (c : VitessDeploymentConfig.t) (with_limit : bool) :
  stored_service_configuration store service soa_dir = Ok general_config ->
  stored_instance_config store service instance " vitesscluster" cluster soa_dir
  = Ok instance_config ->
  io_outcome
    (load_vitess_instance_config store get_branch get_deploy_group
       service instance cluster load_deployments soa_dir) = Ok c ->
  (forall n, instance_config !! "replicas" = Some (VInt n) ->
             VitessDeploymentConfig.get_instances c with_limit = VInt n)
  /\ (forall v, instance_config !! "replicas" = None ->
                general_config !! "replicas" = Some v ->
                VitessDeploymentConfig.get_instances c with_limit = v)
  /\ (instance_config !! "replicas" = None ->
      general_config !! "replicas" = None ->
      VitessDeploymentConfig.get_instances c with_limit = VInt 1).
Proof.
  intros Hg Hic H.
  apply load_outcome_fields in H as (g & ic & Hg' & Hic' & ->).
  rewrite Hg in Hg'. rewrite Hic in Hic'. injection Hg' as <-. injection Hic' as <-.
  unfold VitessDeploymentConfig.get_instances. cbn [VitessDeploymentConfig.config_dict].
  rewrite deep_merge_lookup.
  split_and!.
  - intros n ->. destruct (general_config !! "replicas") as [dv|]; [|reflexivity].
    cbn [from_option]. unfold id. by destruct dv.
  - intros v -> ->. reflexivity.
  - intros -> ->. reflexivity.
Qed.

Lemma loaded_replica_count_witness :
  VitessDeploymentConfig.get_instances
    (VitessDeploymentConfig.mk "vitess" "superregion" "host-1"
       (utils.deep_merge_dictionaries
          {[ "replicas" := VInt 3 ]}
          {[ "cpus" := VInt 1; "deploy_group" := VStr "prod.main" ]})
       None "/nail/etc/services") true
  = VInt 3.
Proof.
  apply (proj1 (loaded_replica_count sample_store sample_get_branch
                  sample_get_deploy_group "vitess" "host-1" "superregion" false
                  "/nail/etc/services"
                  {[ "cpus" := VInt 1; "deploy_group" := VStr "prod.main" ]}
                  {[ "replicas" := VInt 3 ]}
                  (VitessDeploymentConfig.mk "vitess" "superregion" "host-1"
                     (utils.deep_merge_dictionaries
                        {[ "replicas" := VInt 3 ]}
                        {[ "cpus" := VInt 1; "deploy_group" := VStr "prod.main" ]})
                     None "/nail/etc/services")
                  true eq_refl eq_refl eq_refl)).
  reflexivity.
Defined.
